(** * Rule 903: surge of successful inbound payment confirmations

    A shallow embedding of [handleTransaction] (src/rule-903.ts) and the
    properties its specification states about it.

    - JavaScript numbers are IEEE-754 binary64 values, taken from the
      Standard Library's executable specification [SpecFloat] (precision 53,
      maximal exponent 1024, round to nearest even, a single NaN).
    - The function is asynchronous but strictly sequential; it is modelled in
      a small monad that records the observable effects (log entries and
      queries sent to the store) in order and either completes normally or
      throws.
    - The store's [query] returns either a cursor or a promise of one; the
      source reads the batches of the baseline query off what [query]
      returned, without awaiting it, and awaits the current-window query
      first. Both are modelled as written.
    - A rule result is a JavaScript object: a finite map from property names
      to property values. *)

From Stdlib Require Import ZArith Bool List SpecFloat.
From stdpp Require Import base option list strings gmap.

Local Open Scope string_scope.

(** ** Numbers *)

Module Num.

Definition number : Type := spec_float.

Definition prec : Z := 53.
Definition emax : Z := 1024.

(** An integer literal of the source, as a double. *)
Definition of_Z (z : Z) : number := binary_normalize prec emax z 0 false.

Definition NaN : number := S754_nan.
Definition zero : number := S754_zero false.

(** [x * y], [x / y] and [x > y] on doubles. *)
Definition mul (x y : number) : number := SFmul prec emax x y.
Definition div (x y : number) : number := SFdiv prec emax x y.
Definition gt (x y : number) : bool := SFltb y x.
(** [x === y] on numbers. *)
Definition eqb (x y : number) : bool := SFeqb x y.

(** ToBoolean on a number: [+0], [-0] and [NaN] are falsy. *)
Definition truthy (x : number) : bool :=
  match x with
  | S754_zero _ | S754_nan => false
  | S754_infinity _ | S754_finite _ _ _ => true
  end.

Definition is_zero (x : number) : bool :=
  match x with S754_zero _ => true | _ => false end.

Definition is_nan (x : number) : bool :=
  match x with S754_nan => true | _ => false end.




(** [a || b] where [a] is an optional number of the configuration:
    [undefined], [0] and [NaN] give [b]. *)
Definition or_else (a : option number) (b : number) : number :=
  match a with
  | Some x => if truthy x then x else b
  | None => b
  end.








End Num.

Export Num.

(** ** Values returned by the store *)

(** The result of a query is untyped at run time (the source only casts it).
    The count queries of this rule return numbers, possibly wrapped in
    arrays; [undefined], [null] and a plain object stand for everything that
    is not a number. *)
#[local] Unset Elimination Schemes.

Inductive jsval : Type :=
  | VUndefined
  | VNull
  | VNum (n : number)
  | VArr (l : list jsval)
  | VObj.

#[local] Set Elimination Schemes.

(** [Array.isArray(v)]. *)
Definition isArray (v : jsval) : bool :=
  match v with VArr _ => true | _ => false end.

(** [v.length] and [v[i]] for an array [v]; an index out of range reads
    [undefined]. *)
Definition length_of (v : jsval) : nat :=
  match v with VArr l => length l | _ => 0 end.

Definition index (v : jsval) (i : nat) : jsval :=
  match v with VArr l => nth i l VUndefined | _ => VUndefined end.

(** [typeof v === 'number']. *)
Definition typeof_number (v : jsval) : bool :=
  match v with VNum _ => true | _ => false end.

(** [v == null]: true of [null] and [undefined] only. *)
Definition loosely_null (v : jsval) : bool :=
  match v with VUndefined | VNull => true | _ => false end.

(** [Number(String(n))]: printing a double and reading it back gives the
    same double, except that [-0] prints as ["0"]. *)
Definition reread (n : number) : number :=
  match n with S754_zero _ => zero | _ => n end.

(** ToNumber, the coercion applied to the operands of [/].
    An array is first converted to a string by joining its elements with
    commas, [undefined] and [null] elements printing as the empty string:
    the empty array gives [""], hence [0]; a one-element array gives what
    its element prints as; anything longer contains a comma and gives
    [NaN]. A plain object prints as ["[object Object]"]. *)
Fixpoint ToNumber (v : jsval) : number :=
  match v with
  | VUndefined => NaN
  | VNull => zero
  | VNum n => n
  | VObj => NaN
  | VArr [] => zero
  | VArr [x] =>
      match x with
      | VUndefined | VNull => zero
      | VNum n => reread n
      | VArr _ => ToNumber x
      | VObj => NaN
      end
  | VArr (_ :: _ :: _) => NaN
  end.

(** ** Input and output data *)

(** [OutcomeResult] of the rule library: an exit condition. *)
Record OutcomeResult : Type := {
  subRuleRef : string;
  reason : string
}.

(** A band is an outcome with optional limits; this rule only looks at the
    number of bands. *)
Record Band : Type := {
  band_outcome : OutcomeResult;
  lowerLimit : option number;
  upperLimit : option number
}.

(** [ruleConfig.config.parameters]; an absent property is [None]. *)
Record Parameters : Type := {
  maxQueryRange : option number;
  baselineQueryRange : option number;
  surgeThresholdMultiplier : option number
}.

Record Config : Type := {
  bands : option (list Band);
  exitConditions : option (list OutcomeResult);
  parameters : option Parameters
}.

Record RuleConfig : Type := {
  id : string;
  cfg : string;
  config : option Config
}.

Record GroupHeader : Type := {
  MsgId : string;
  CreDtTm : string
}.

Record TransactionInfoAndStatus : Type := {
  TxSts : string
}.

Record PaymentStatus : Type := {
  GrpHdr : GroupHeader;
  TxInfAndSts : TransactionInfoAndStatus
}.

Record Pacs002 : Type := {
  FIToFIPmtSts : PaymentStatus
}.

Record DataCacheT : Type := {
  dbtrAcctId : option string;
  cdtrAcctId : option string
}.

Record RuleRequest : Type := {
  transaction : Pacs002;
  DataCache : option DataCacheT
}.

(** A property of a rule result. *)
Inductive prop : Type :=
  | PStr (s : string)
  | PNum (n : number).

(** A rule result: the properties the caller populated, by name. *)
Abbreviation RuleResult := (gmap string prop).

(** ToBoolean on a string: only the empty string is falsy. *)
Definition truthy_string (s : string) : bool :=
  match s with EmptyString => false | String _ _ => true end.

(** ToBoolean on an optional string property. *)
Definition truthy_ostring (o : option string) : bool :=
  match o with Some s => truthy_string s | None => false end.

(** Optional chaining [o?.f]: [undefined] when [o] is [undefined] or [null]. *)
Definition chain {A B : Type} (o : option A) (f : A → option B) : option B :=
  match o with
  | Some a => f a
  | None => None
  end.

Notation "o ?> f" := (chain o f) (at level 25, left associativity).

(** ** Effects *)

(** The two queries of the rule, with the values interpolated into them.
    Both count the [transactionRelationship] edges from [q_from] of type
    ['pacs.002.001.12'] whose creation time is at most [q_range] before
    [q_now]; the current-window query also asks for a creation time not
    after [q_now]. *)
Inductive query : Type :=
  | BaselineQuery (q_from q_now : string) (q_range : number)
  | CurrentQuery (q_from q_now : string) (q_range : number).

(** What awaiting [cursor.batches.all()] gives: all the batches, or a
    rejection. *)
Inductive reply : Type :=
  | Resolved (v : jsval)
  | Rejected (message : string).

(** What [databaseManager._pseudonymsDb.query(q)] returns: the cursor
    itself, with what its batches settle to, as a synchronous store does; or
    a promise, which resolves to such a cursor or is rejected, as the
    database driver's [query] does. *)
Inductive answer : Type :=
  | Cursor (batches : reply)
  | PromiseOf (batches : reply)
  | PromiseRejected (message : string).

Inductive event : Type :=
  | Trace (message context msgId : string)
  | Issued (q : query).

Inductive completion (A : Type) : Type :=
  | Normal (a : A)
  | Throw (message : string).

Arguments Normal {A} a.
Arguments Throw {A} message.

(** A computation: the effects it performed, in order, and how it ended. *)
Record Eff (A : Type) : Type := MkEff {
  effects : list event;
  outcome : completion A
}.

Arguments MkEff {A} effects outcome.
Arguments effects {A} e.
Arguments outcome {A} e.

Definition ret {A : Type} (a : A) : Eff A := MkEff [] (Normal a).

(** Sequencing: the effects of both parts, unless the first one throws. *)
Definition bind {A B : Type} (m : Eff A) (f : A → Eff B) : Eff B :=
  match m with
  | MkEff t (Normal a) => let '(MkEff t' r) := f a in MkEff (t ++ t')%list r
  | MkEff t (Throw e) => MkEff t (Throw e)
  end.

Declare Scope eff_scope.
Delimit Scope eff_scope with eff.
Bind Scope eff_scope with Eff.

Notation "x ← y ; z" := (bind y (λ x, z))
  (at level 20, y at level 100, z at level 200, only parsing) : eff_scope.
Notation "x ;; z" := (bind x (λ _, z))
  (at level 100, z at level 200, only parsing, right associativity) : eff_scope.

Definition throw {A : Type} (message : string) : Eff A := MkEff [] (Throw message).

(** The [TypeError] of reading [all] off a missing [batches]. *)
Definition err_unawaited : string :=
  "TypeError: Cannot read properties of undefined (reading 'all')".

Definition emit (e : event) : Eff unit := MkEff [e] (Normal tt).

(** [loggerService.trace(message, context, msgId)]. *)
Definition trace (message context msgId : string) : Eff unit :=
  emit (Trace message context msgId).

(** [databaseManager._pseudonymsDb.query(q)]: the query is sent, and the
    store answers. *)
Definition send (databaseManager : query → answer) (q : query) : Eff answer :=
  (emit (Issued q) ;; ret (databaseManager q))%eff.

(** [x.batches.all()] on what [query] returned. A promise has no [batches]
    property: reading [all] of [undefined] throws a [TypeError]. *)
Definition batches_all (x : answer) : Eff reply :=
  match x with
  | Cursor batches => ret batches
  | PromiseOf _ | PromiseRejected _ => throw err_unawaited
  end.

(** [await x] on what [query] returned: a promise gives the cursor it
    resolves to, or throws its rejection; a cursor is left as it is. *)
Definition await_cursor (x : answer) : Eff answer :=
  match x with
  | Cursor batches | PromiseOf batches => ret (Cursor batches)
  | PromiseRejected e => throw e
  end.

(** [await p] on the promise of the batches: a rejection is rethrown. *)
Definition await (p : reply) : Eff jsval :=
  match p with
  | Resolved v => ret v
  | Rejected e => throw e
  end.

(** Reading a property of [undefined] or [null] throws a [TypeError]. *)
Definition deref {A : Type} (o : option A) : Eff A :=
  match o with
  | Some a => ret a
  | None => throw "TypeError: Cannot read properties of undefined"
  end.

(** The queries among the effects. *)
Definition queries (t : list event) : list query :=
  omap (λ e, match e with Issued q => Some q | Trace _ _ _ => None end) t.

(** ** The rule *)

Definition err_bands : string := "Invalid config provided - bands not provided or empty".
Definition err_exitConditions : string := "Invalid config provided - exitConditions not provided".
Definition err_parameters : string := "Invalid config provided - parameters not provided".
Definition err_maxQueryRange : string := "Invalid config provided - maxQueryRange parameter not provided".
Definition err_dbtrAcctId : string := "Data Cache does not have required dbtrAcctId".
Definition err_no_exit : string := "Unsuccessful transaction and no exit condition in config".
Definition err_baseline : string :=
  "Data error: irretrievable baseline transaction history or no transactions found.".
Definition err_baseline_type : string := "Data error: invalid baseline count type or null value.".
Definition err_history : string := "Data error: irretrievable transaction history".
Definition err_mismatch : string := "Data error: query result type mismatch - expected a number".

(** The label of the log entries:
    [`Rule-${ruleConfig?.id ? ruleConfig.id : '<unresolved>'} handleTransaction()`]. *)
Definition context_of (ruleConfig : option RuleConfig) : string :=
  "Rule-" +:+
  match ruleConfig with
  | Some rc => if truthy_string (id rc) then id rc else "<unresolved>"
  | None => "<unresolved>"
  end +:+ " handleTransaction()".

(** [`accounts/${req.DataCache.cdtrAcctId}`]: a missing identifier prints as
    ["undefined"]. *)
Definition creditorAccountId_of (cache : DataCacheT) : string :=
  "accounts/" +:+ default "undefined" (cdtrAcctId cache).

(** [baselineTransactions[0] / (baselineQueryRange / maxQueryRange)]. *)
Definition baselineCount_of (first : jsval) (baselineQueryRange maxQueryRange : number) : number :=
  div (ToNumber first) (div baselineQueryRange maxQueryRange).

Section Rule.

(** [unwrap] of the rule library, which is not part of this repository:
    it takes the batches of a cursor to the value they wrap. *)
Variable unwrap : jsval → jsval.

(** The logger is not a parameter: its calls are recorded among the effects
    of the run. *)
Definition handleTransaction
    (req : RuleRequest)
    (determineOutcome : number → RuleConfig → RuleResult → RuleResult)
    (ruleRes : RuleResult)
    (ruleConfig : option RuleConfig)
    (databaseManager : query → answer) : Eff RuleResult :=
  (let context := context_of ruleConfig in
  let msgId := MsgId (GrpHdr (FIToFIPmtSts (transaction req))) in

  trace "Start - handle transaction" context msgId ;;

  (* Guard pattern *)
  match ruleConfig ?> config ?> bands with
  | None | Some [] => throw err_bands
  | Some (_ :: _) => ret tt
  end ;;
  rc ← deref ruleConfig ;
  conf ← deref (config rc) ;
  exits ← match exitConditions conf with
          | None => throw err_exitConditions
          | Some l => ret l
          end ;
  params ← match parameters conf with
           | None => throw err_parameters
           | Some p => ret p
           end ;
  maxQueryRange ← match maxQueryRange params with
                  | Some m => if truthy m then ret m else throw err_maxQueryRange
                  | None => throw err_maxQueryRange
                  end ;
  (if truthy_ostring (DataCache req ?> dbtrAcctId)
   then ret tt else throw err_dbtrAcctId) ;;

  (* Step 1: early exit conditions *)
  trace "Step 1 - Early exit conditions" context msgId ;;
  let UnsuccessfulTransaction :=
    List.find (λ b, String.eqb (subRuleRef b) ".x00") exits in
  if negb (String.eqb (TxSts (TxInfAndSts (FIToFIPmtSts (transaction req)))) "ACCC") then
    match UnsuccessfulTransaction with
    | None => throw err_no_exit
    | Some u =>
        ret (<["subRuleRef" := PStr (subRuleRef u)]>
               (<["reason" := PStr (reason u)]> ruleRes))
    end
  else

  (* Step 2: query setup *)
  trace "Step 2 - Query setup for creditor" context msgId ;;
  let currentPacs002TimeFrame := CreDtTm (GrpHdr (FIToFIPmtSts (transaction req))) in
  cache ← deref (DataCache req) ;
  let creditorAccountId := creditorAccountId_of cache in
  let baselineQueryRange :=
    or_else (baselineQueryRange params) (mul maxQueryRange (of_Z 5)) in

  (* Step 3: baseline activity over the larger time frame *)
  trace "Step 3 - Baseline query setup for creditor" context msgId ;;
  trace "Step 3 - Baseline query setup for creditor" context msgId ;;
  (* [await query(...).batches.all()]: the batches are read off what
     [query] returned, which is not awaited. *)
  baselineCursor ←
    send databaseManager
      (BaselineQuery creditorAccountId currentPacs002TimeFrame baselineQueryRange) ;
  baselineBatches ← batches_all baselineCursor ;
  baselineTransactions ← await baselineBatches ;
  (if negb (isArray baselineTransactions) || (length_of baselineTransactions =? 0)%nat
   then throw err_baseline else ret tt) ;;
  let baselineCount :=
    baselineCount_of (index baselineTransactions 0) baselineQueryRange maxQueryRange in
  (* [baselineCount == null || typeof baselineCount !== 'number'], on the
     quotient, which is a number whatever its operands were. *)
  (if loosely_null (VNum baselineCount) || negb (typeof_number (VNum baselineCount))
   then throw err_baseline_type else ret tt) ;;

  (* Step 4: current transactions *)
  trace "Step 4 - Query for current transactions for creditor" context msgId ;;
  (* [await (await query(...)).batches.all()] *)
  currentAnswer ←
    send databaseManager
      (CurrentQuery creditorAccountId currentPacs002TimeFrame maxQueryRange) ;
  currentCursor ← await_cursor currentAnswer ;
  currentBatches ← batches_all currentCursor ;
  numberOfRecentTransactions ← await currentBatches ;
  let count := unwrap numberOfRecentTransactions in
  (if loosely_null count then throw err_history else ret tt) ;;
  (if negb (typeof_number count) then throw err_mismatch else ret tt) ;;

  (* Step 5: surge decision *)
  let surgeThresholdMultiplier := or_else (surgeThresholdMultiplier params) (of_Z 2) in
  let isSurge := gt (ToNumber count) (mul baselineCount surgeThresholdMultiplier) in
  trace "End - handle transaction" context msgId ;;

  (* Step 6: outcome *)
  if isSurge
  then ret (determineOutcome (of_Z 1) rc ruleRes)
  else ret (determineOutcome (of_Z 0) rc ruleRes))%eff.

End Rule.

(** ** Vocabulary of the statements *)

(** The fields of the request the rule reads. *)
Definition msgId_of (req : RuleRequest) : string :=
  MsgId (GrpHdr (FIToFIPmtSts (transaction req))).
Definition now_of (req : RuleRequest) : string :=
  CreDtTm (GrpHdr (FIToFIPmtSts (transaction req))).
Definition status_of (req : RuleRequest) : string :=
  TxSts (TxInfAndSts (FIToFIPmtSts (transaction req))).

(** The transaction was accepted: its status code is ["ACCC"]. *)
Definition accepted (req : RuleRequest) : bool := String.eqb (status_of req) "ACCC".

(** The conditions of the five guards, in the order of the source, each with
    the message it throws. *)
Definition no_bands (ruleConfig : option RuleConfig) : bool :=
  match ruleConfig ?> config ?> bands with
  | None | Some [] => true
  | Some (_ :: _) => false
  end.

Definition no_exitConditions (ruleConfig : option RuleConfig) : bool :=
  match ruleConfig ?> config ?> exitConditions with None => true | Some _ => false end.

Definition no_parameters (ruleConfig : option RuleConfig) : bool :=
  match ruleConfig ?> config ?> parameters with None => true | Some _ => false end.

Definition no_maxQueryRange (ruleConfig : option RuleConfig) : bool :=
  match ruleConfig ?> config ?> parameters ?> maxQueryRange with
  | None => true
  | Some m => negb (truthy m)
  end.

Definition no_dbtrAcctId (req : RuleRequest) : bool :=
  negb (truthy_ostring (DataCache req ?> dbtrAcctId)).

Definition guard_checks (ruleConfig : option RuleConfig) (req : RuleRequest)
  : list (bool * string) :=
  [ (no_bands ruleConfig, err_bands);
    (no_exitConditions ruleConfig, err_exitConditions);
    (no_parameters ruleConfig, err_parameters);
    (no_maxQueryRange ruleConfig, err_maxQueryRange);
    (no_dbtrAcctId req, err_dbtrAcctId) ].

(** The message of the first guard that fires, if any does. *)
Definition first_violation (ruleConfig : option RuleConfig) (req : RuleRequest)
  : option string :=
  snd <$> List.find fst (guard_checks ruleConfig req).

(** An input that passes the five guards, with the parts of the
    configuration and of the request the rest of the rule works on. *)
Record Guarded (ruleConfig : option RuleConfig) (req : RuleRequest)
    (rc : RuleConfig) (exits : list OutcomeResult) (params : Parameters)
    (M : number) (cache : DataCacheT) : Prop := {
  guarded_config : ruleConfig = Some rc;
  guarded_bands : no_bands ruleConfig = false;
  guarded_exits : ruleConfig ?> config ?> exitConditions = Some exits;
  guarded_params : ruleConfig ?> config ?> parameters = Some params;
  guarded_max : maxQueryRange params = Some M;
  guarded_max_truthy : truthy M = true;
  guarded_cache : DataCache req = Some cache;
  guarded_dbtr : truthy_ostring (dbtrAcctId cache) = true
}.

(** The exit condition the rule looks for. *)
Definition is_x00 (b : OutcomeResult) : bool := String.eqb (subRuleRef b) ".x00".

(** The early-exit result: [{...ruleRes, reason, subRuleRef}]. *)
Definition exit_result (ruleRes : RuleResult) (u : OutcomeResult) : RuleResult :=
  <["subRuleRef" := PStr (subRuleRef u)]> (<["reason" := PStr (reason u)]> ruleRes).

(** The score handed to the outcome resolver. *)
Definition score (isSurge : bool) : number := if isSurge then of_Z 1 else of_Z 0.

(** The log entries of a run, by stage. *)
Definition log (ruleConfig : option RuleConfig) (req : RuleRequest) (message : string) : event :=
  Trace message (context_of ruleConfig) (msgId_of req).

(** For an accepted transaction: the baseline window and the multiplier the
    rule works with, the two queries it sends, and its effects up to each of
    them. *)
Definition window (params : Parameters) (M : number) : number :=
  or_else (baselineQueryRange params) (mul M (of_Z 5)).

Definition multiplier (params : Parameters) : number :=
  or_else (surgeThresholdMultiplier params) (of_Z 2).

Definition baselineQ (req : RuleRequest) (params : Parameters) (M : number)
    (cache : DataCacheT) : query :=
  BaselineQuery (creditorAccountId_of cache) (now_of req) (window params M).

Definition currentQ (req : RuleRequest) (M : number) (cache : DataCacheT) : query :=
  CurrentQuery (creditorAccountId_of cache) (now_of req) M.

Definition setup (ruleConfig : option RuleConfig) (req : RuleRequest)
    (params : Parameters) (M : number) (cache : DataCacheT) : list event :=
  [ log ruleConfig req "Start - handle transaction";
    log ruleConfig req "Step 1 - Early exit conditions";
    log ruleConfig req "Step 2 - Query setup for creditor";
    log ruleConfig req "Step 3 - Baseline query setup for creditor";
    log ruleConfig req "Step 3 - Baseline query setup for creditor";
    Issued (baselineQ req params M cache) ].

Definition recent (ruleConfig : option RuleConfig) (req : RuleRequest)
    (M : number) (cache : DataCacheT) : list event :=
  [ log ruleConfig req "Step 4 - Query for current transactions for creditor";
    Issued (currentQ req M cache) ].

(** What the two awaits of the current-window query come to: the batches of
    the cursor, be it returned or promised, or the rejection of the
    promise. *)
Definition settled (x : answer) : reply :=
  match x with
  | Cursor batches | PromiseOf batches => batches
  | PromiseRejected e => Rejected e
  end.

(** The store answered with a promise. *)
Definition is_promise (x : answer) : bool :=
  match x with
  | Cursor _ => false
  | PromiseOf _ | PromiseRejected _ => true
  end.

(** A one-level unwrapping in the sense of the specification, used in the
    examples: the first value of the first batch. *)
Definition first_of_first (v : jsval) : jsval :=
  match v with
  | VArr (VArr (x :: _) :: _) => x
  | _ => VUndefined
  end.

(** ** Sample inputs *)

Module Sample.

Definition band : Band :=
  {| band_outcome := {| subRuleRef := ".01"; reason := "No surge" |};
     lowerLimit := None; upperLimit := Some (of_Z 1) |}.

Definition x00 : OutcomeResult :=
  {| subRuleRef := ".x00"; reason := "Unsuccessful" |}.

(** A configuration with [maxQueryRange = M] and the given bands, exit
    conditions, baseline window and multiplier. *)
Definition config_with (bs : list Band) (exits : list OutcomeResult)
    (M : number) (B S : option number) : RuleConfig :=
  {| id := "903@1.0.0"; cfg := "1.0.0";
     config := Some {| bands := Some bs;
                       exitConditions := Some exits;
                       parameters := Some {| maxQueryRange := Some M;
                                             baselineQueryRange := B;
                                             surgeThresholdMultiplier := S |} |} |}.

Definition params_of (M : number) (B S : option number) : Parameters :=
  {| maxQueryRange := Some M; baselineQueryRange := B; surgeThresholdMultiplier := S |}.

Definition cache : DataCacheT :=
  {| dbtrAcctId := Some "dbtrAcct_1"; cdtrAcctId := Some "cdtrAcct_1" |}.

Definition request (status : string) : RuleRequest :=
  {| transaction :=
       {| FIToFIPmtSts :=
            {| GrpHdr := {| MsgId := "msg-1"; CreDtTm := "2024-01-01T00:00:00.000Z" |};
               TxInfAndSts := {| TxSts := status |} |} |};
     DataCache := Some cache |}.

(** A store whose batches are [baseline] for the baseline query and
    [current] for the current-window query, and whose [query] returns the
    cursor itself, as a test double may. *)
Definition store (baseline current : jsval) (q : query) : answer :=
  match q with
  | BaselineQuery _ _ _ => Cursor (Resolved baseline)
  | CurrentQuery _ _ _ => Cursor (Resolved current)
  end.

(** A store with the same batches whose [query] returns a promise for
    every query, as the database driver does. *)
Definition driver (baseline current : jsval) (q : query) : answer :=
  match q with
  | BaselineQuery _ _ _ => PromiseOf (Resolved baseline)
  | CurrentQuery _ _ _ => PromiseOf (Resolved current)
  end.

(** An outcome resolver that records the score it was given. *)
Definition resolver (value : number) (rc : RuleConfig) (r : RuleResult) : RuleResult :=
  <["score" := PNum value]> r.

(** Scenario A and B of the specification: one hour of current window, the
    default baseline window and multiplier. *)
Definition hour : number := of_Z 3600.
Definition scenario : RuleConfig := config_with [band] [x00] hour None None.

(** The run of the rule on a sample request and configuration. *)
Definition run (status : string) (conf : RuleConfig) (baseline current : jsval)
  : Eff RuleResult :=
  handleTransaction first_of_first (request status) resolver ∅ (Some conf)
    (store baseline current).

(** The same run against the driver. *)
Definition driven (status : string) (conf : RuleConfig) (baseline current : jsval)
  : Eff RuleResult :=
  handleTransaction first_of_first (request status) resolver ∅ (Some conf)
    (driver baseline current).

(** A count as the store returns it: one batch holding one number. *)
Definition counted (n : Z) : jsval := VArr [VArr [VNum (of_Z n)]].

(** The largest power of two and the least positive double. *)
Definition huge : number := S754_finite false 4503599627370496 971.
Definition tiny : number := S754_finite false 1 (-1074).

End Sample.

(** * Properties *)

(** The arithmetic of doubles and the string builders are kept folded while
    a run is unfolded. *)
Arguments of_Z : simpl never.
Arguments mul : simpl never.
Arguments div : simpl never.
Arguments gt : simpl never.
Arguments context_of : simpl never.
Arguments creditorAccountId_of : simpl never.
Arguments baselineCount_of : simpl never.
Arguments or_else : simpl never.

(** Unfolding a run up to the next test that does not reduce. *)
Ltac run_step :=
  cbv beta iota zeta
    delta [bind ret throw emit trace deref send batches_all await_cursor await
           chain app fst snd
           isArray length_of index loosely_null typeof_number negb orb
           Nat.eqb length nth].

(** ** Runs, path by path *)

Section Runs.

Variable unwrap : jsval → jsval.
Variable determineOutcome : number → RuleConfig → RuleResult → RuleResult.
Variable ruleRes : RuleResult.
Variable databaseManager : query → answer.

Variable ruleConfig : option RuleConfig.
Variable req : RuleRequest.

Local Abbreviation run :=
  (handleTransaction unwrap req determineOutcome ruleRes ruleConfig databaseManager).
Local Abbreviation entry message := (log ruleConfig req message).

(** A guard that fires ends the run right after the first log entry. *)
Lemma run_violation (message : string) :
  first_violation ruleConfig req = Some message →
  run = MkEff [entry "Start - handle transaction"] (Throw message).
Proof.
  unfold first_violation, guard_checks, no_bands, no_exitConditions,
    no_parameters, no_maxQueryRange, no_dbtrAcctId, handleTransaction, log, msgId_of.
  destruct ruleConfig as [[i c [[[[|b bs]|] [exits|] [[[M|] B S]|]]|]]|];
    cbn [List.find fmap option_fmap option_map config bands exitConditions
         parameters maxQueryRange]; run_step;
    cbn [List.find fmap option_fmap option_map config bands exitConditions
         parameters maxQueryRange fst snd negb];
    try (intros [= <-]; reflexivity).
  all: destruct (truthy M); cbn [negb];
    try (intros [= <-]; reflexivity).
  all: destruct (truthy_ostring _); cbn [negb fmap option_fmap option_map];
    try (intros [= <-]; reflexivity); discriminate.
Qed.

(** An input on which no guard fires is a guarded input. *)
Lemma no_violation_guarded :
  first_violation ruleConfig req = None →
  ∃ rc exits params M cache, Guarded ruleConfig req rc exits params M cache.
Proof.
  unfold first_violation, guard_checks, no_bands, no_exitConditions,
    no_parameters, no_maxQueryRange, no_dbtrAcctId.
  destruct ruleConfig as [[i c [[[[|b bs]|] [exits|] [[[M|] B S]|]]|]]|];
    cbn; try discriminate.
  destruct (truthy M) eqn:Ht; cbn; try discriminate.
  destruct (DataCache req) as [cache|] eqn:Hc; cbn; try discriminate.
  destruct (truthy_ostring (dbtrAcctId cache)) eqn:Hd; cbn; try discriminate.
  intros _. eexists _, exits, _, M, cache. split; try reflexivity; assumption.
Qed.

Section Guarded.

Variable rc : RuleConfig.
Variable exits : list OutcomeResult.
Variable params : Parameters.
Variable M : number.
Variable cache : DataCacheT.
Hypothesis guarded : Guarded ruleConfig req rc exits params M cache.

Lemma guarded_no_violation : first_violation ruleConfig req = None.
Proof.
  destruct guarded as [-> Hb He Hp Hm Ht Hc Hd].
  unfold first_violation, guard_checks, no_bands, no_exitConditions, no_parameters,
    no_maxQueryRange, no_dbtrAcctId in *.
  destruct rc as [i c [[[[|b bs]|] ex pa]|]]; cbn in Hb, He, Hp; try discriminate.
  subst ex pa. unfold chain. cbn [config bands exitConditions parameters].
  rewrite Hm, Ht, Hc, Hd. reflexivity.
Qed.

(** A transaction that was not accepted: the run ends at the early exit. *)
Lemma run_unsuccessful :
  accepted req = false →
  run = MkEff [entry "Start - handle transaction"; entry "Step 1 - Early exit conditions"]
          match List.find is_x00 exits with
          | Some u => Normal (exit_result ruleRes u)
          | None => Throw err_no_exit
          end.
Proof.
  destruct guarded as [-> Hb He Hp Hm Ht Hc Hd].
  unfold accepted, status_of. intros Hs.
  unfold handleTransaction, no_bands, log, msgId_of in *.
  destruct rc as [i c [[[[|b bs]|] ex pa]|]]; cbn in Hb, He, Hp; try discriminate.
  subst ex pa. run_step. cbn [config bands exitConditions parameters].
  rewrite Hm, Ht, Hc. run_step. rewrite Hd, Hs. run_step. cbn [negb].
  fold is_x00. destruct (List.find is_x00 exits); reflexivity.
Qed.

(** An accepted transaction: the rest of the run, by what the store
    answers. A promise in answer to the baseline query ends the run, whatever
    it would resolve to; in answer to the current-window query it is
    awaited. *)
Lemma run_accepted :
  accepted req = true →
  run =
    let setup := setup ruleConfig req params M cache in
    let recent := recent ruleConfig req M cache in
    let window := window params M in
    let multiplier := multiplier params in
    match databaseManager (baselineQ req params M cache) with
    | PromiseOf _ | PromiseRejected _ => MkEff setup (Throw err_unawaited)
    | Cursor (Rejected e) => MkEff setup (Throw e)
    | Cursor (Resolved (VArr (first :: _))) =>
        match settled (databaseManager (currentQ req M cache)) with
        | Rejected e => MkEff (setup ++ recent) (Throw e)
        | Resolved batches =>
            match unwrap batches with
            | VUndefined | VNull => MkEff (setup ++ recent) (Throw err_history)
            | VArr _ | VObj => MkEff (setup ++ recent) (Throw err_mismatch)
            | VNum count =>
                MkEff (setup ++ recent ++ [entry "End - handle transaction"])
                  (Normal
                     (determineOutcome
                        (score (gt count (mul (baselineCount_of first window M) multiplier)))
                        rc ruleRes))
            end
        end
    | Cursor (Resolved _) => MkEff setup (Throw err_baseline)
    end.
Proof.
  unfold accepted, status_of. intros Hs.
  cbv zeta. unfold setup, recent, baselineQ, currentQ, window, multiplier, now_of.
  destruct guarded as [-> Hb He Hp Hm Ht Hc Hd].
  unfold handleTransaction, no_bands, log, msgId_of in *.
  destruct rc as [i c [[[[|b bs]|] ex pa]|]]; cbn in Hb, He, Hp; try discriminate.
  subst ex pa. run_step. cbn [config bands exitConditions parameters].
  rewrite Hm, Ht, Hc. run_step. rewrite Hd, Hs. run_step. cbn [negb].
  match goal with
  | |- context [databaseManager (BaselineQuery ?a ?n ?r)] =>
      destruct (databaseManager (BaselineQuery a n r))
        as [[[| | |[|first rest]|]|e]|r'|e]
  end; run_step; try reflexivity.
  match goal with
  | |- context [databaseManager (CurrentQuery ?a ?n ?r)] =>
      destruct (databaseManager (CurrentQuery a n r)) as [[batches|e]|[batches|e]|e]
  end; run_step; cbn [settled]; try reflexivity.
  all: destruct (unwrap batches); run_step; try reflexivity.
  all: cbn [ToNumber]; unfold score; destruct (gt _ _); reflexivity.
Qed.

End Guarded.

End Runs.

(** ** Facts about doubles *)

(** Comparing in the other direction gives the opposite answer. *)
Lemma SFcompare_swap (x y : number) (c : comparison) :
  SFcompare x y = Some c → SFcompare y x = Some (CompOpp c).
Proof.
  destruct x as [sx|sx| |sx mx ex], y as [sy|sy| |sy my ey]; cbn;
    try discriminate;
    try (destruct sx; intros [= <-]; reflexivity);
    try (destruct sy; intros [= <-]; reflexivity);
    try (destruct sx, sy; intros [= <-]; reflexivity).
  rewrite (Z.compare_antisym ex ey).
  assert (H : Pos.compare_cont Eq my mx = CompOpp (Pos.compare_cont Eq mx my))
    by (rewrite Pos.compare_cont_antisym; reflexivity).
  rewrite H.
  destruct sx, sy; intros [= <-]; try reflexivity;
    destruct (ex ?= ey)%Z; cbn; rewrite ?CompOpp_involutive; reflexivity.
Qed.

(** Equal numbers are not strictly ordered: [x === y] excludes [x > y]. *)
Lemma eqb_not_gt (x y : number) : eqb x y = true → gt x y = false.
Proof.
  unfold eqb, gt, SFeqb, SFltb.
  destruct (SFcompare x y) as [[| |]|] eqn:E; try discriminate.
  rewrite (SFcompare_swap _ _ _ E). reflexivity.
Qed.

Section Rounding.
Local Open Scope Z_scope.




















End Rounding.

(** ** Scaling by powers of two *)

Section Scaling.

Local Open Scope Z_scope.



End Scaling.

Section ScalingQuotients.

Local Open Scope Z_scope.







End ScalingQuotients.



(** ** The claims *)

Section Claims.

Variable unwrap : jsval → jsval.
Variable determineOutcome : number → RuleConfig → RuleResult → RuleResult.
Variable ruleRes : RuleResult.
Variable databaseManager : query → answer.
Variable ruleConfig : option RuleConfig.
Variable req : RuleRequest.

Local Abbreviation run :=
  (handleTransaction unwrap req determineOutcome ruleRes ruleConfig databaseManager).
Local Abbreviation entry message := (log ruleConfig req message).

(** C3. When bands is missing or empty, or exitConditions is missing, or
    parameters is missing, or maxQueryRange is missing or zero, or
    dbtrAcctId is missing, the run throws the message of the first of the
    five checks, taken in that order, that is violated; the five messages
    are pairwise distinct; and the run ends after its first log entry,
    before any query is sent. *)
Theorem guards_fail_fast :
  ruleConfig ?> config ?> bands = None
  ∨ ruleConfig ?> config ?> bands = Some []
  ∨ ruleConfig ?> config ?> exitConditions = None
  ∨ ruleConfig ?> config ?> parameters = None
  ∨ ruleConfig ?> config ?> parameters ?> maxQueryRange = None
  ∨ (∃ z, is_zero z = true
          ∧ ruleConfig ?> config ?> parameters ?> maxQueryRange = Some z)
  ∨ DataCache req ?> dbtrAcctId = None →
  let message :=
    if no_bands ruleConfig then err_bands
    else if no_exitConditions ruleConfig then err_exitConditions
    else if no_parameters ruleConfig then err_parameters
    else if no_maxQueryRange ruleConfig then err_maxQueryRange
    else err_dbtrAcctId in
  run = MkEff [entry "Start - handle transaction"] (Throw message)
  ∧ queries (effects run) = []
  ∧ NoDup (snd <$> guard_checks ruleConfig req).
Proof.
  intros H message.
  assert (Hv : first_violation ruleConfig req = Some message).
  { subst message.
    unfold first_violation, guard_checks, no_bands, no_exitConditions,
      no_parameters, no_maxQueryRange, no_dbtrAcctId.
    destruct H as [H|[H|[H|[H|[H|[(z & Hz & H)|H]]]]]]; rewrite ?H; cbn.
    1, 2: reflexivity.
    - destruct (ruleConfig ?> config ?> bands) as [[|b bs]|]; reflexivity.
    - destruct (ruleConfig ?> config ?> bands) as [[|b bs]|]; try reflexivity.
      destruct (ruleConfig ?> config ?> exitConditions); reflexivity.
    - destruct (ruleConfig ?> config ?> bands) as [[|b bs]|]; try reflexivity.
      destruct (ruleConfig ?> config ?> exitConditions); try reflexivity.
      destruct (ruleConfig ?> config ?> parameters); reflexivity.
    - destruct z; try discriminate. cbn.
      destruct (ruleConfig ?> config ?> bands) as [[|b bs]|]; try reflexivity.
      destruct (ruleConfig ?> config ?> exitConditions); try reflexivity.
      destruct (ruleConfig ?> config ?> parameters); reflexivity.
    - destruct (ruleConfig ?> config ?> bands) as [[|b bs]|]; try reflexivity.
      destruct (ruleConfig ?> config ?> exitConditions); try reflexivity.
      destruct (ruleConfig ?> config ?> parameters) as [p|]; try reflexivity.
      cbn. destruct (maxQueryRange p) as [m|]; try reflexivity.
      destruct (truthy m); reflexivity. }
  rewrite (run_violation _ _ _ _ _ _ _ Hv).
  split; [reflexivity|]. split; [reflexivity|].
  cbn. apply (bool_decide_unpack _). vm_compute. reflexivity.
Qed.

Section Guarded.

Variable rc : RuleConfig.
Variable exits : list OutcomeResult.
Variable params : Parameters.
Variable M : number.
Variable cache : DataCacheT.
Hypothesis guarded : Guarded ruleConfig req rc exits params M cache.

(** C1. In a run that reaches the surge decision (the guards pass, the
    transaction is accepted, the baseline query gives a non-empty array
    and the current-window result unwraps to a number [count]), the
    outcome resolver is given score 1 exactly when [count] is strictly
    greater than the baseline count times the multiplier, and score 0
    otherwise, in particular when the two are equal; what the resolver
    returns is what the run returns. *)
Theorem surge_decision (first : jsval) (rest : list jsval) (batches : jsval)
    (count : number) :
  accepted req = true →
  databaseManager (baselineQ req params M cache)
  = Cursor (Resolved (VArr (first :: rest))) →
  settled (databaseManager (currentQ req M cache)) = Resolved batches →
  unwrap batches = VNum count →
  let baselineCount := baselineCount_of first (window params M) M in
  let threshold := mul baselineCount (multiplier params) in
  (gt count threshold = true →
     outcome run = Normal (determineOutcome (of_Z 1) rc ruleRes))
  ∧ (gt count threshold = false →
     outcome run = Normal (determineOutcome (of_Z 0) rc ruleRes))
  ∧ (eqb count threshold = true →
     outcome run = Normal (determineOutcome (of_Z 0) rc ruleRes)).
Proof.
  intros Ha Hb Hc Hu baselineCount threshold.
  rewrite (run_accepted unwrap determineOutcome ruleRes databaseManager
             _ _ _ _ _ _ _ guarded Ha), Hb, Hc, Hu.
  cbn [outcome]. fold baselineCount. fold threshold.
  assert (Hz : gt count threshold = false →
               Normal (determineOutcome (score (gt count threshold)) rc ruleRes)
               = Normal (determineOutcome (of_Z 0) rc ruleRes))
    by (intros ->; reflexivity).
  split; [intros ->; reflexivity|]. split; [exact Hz|].
  intros He. apply Hz, eqb_not_gt, He.
Qed.

(** C5. When the guards pass, the transaction is not accepted and no
    exit condition has sub-rule reference [".x00"], the run throws, after
    its second log entry and before any query is sent. *)
Theorem unsuccessful_without_exit :
  accepted req = false →
  existsb is_x00 exits = false →
  run = MkEff [entry "Start - handle transaction";
               entry "Step 1 - Early exit conditions"]
          (Throw err_no_exit)
  ∧ queries (effects run) = [].
Proof.
  intros Ha Hx.
  rewrite (run_unsuccessful unwrap determineOutcome ruleRes databaseManager
             _ _ _ _ _ _ _ guarded Ha).
  destruct (List.find is_x00 exits) as [u|] eqn:E.
  - apply find_some in E as [Hin Hu].
    assert (existsb is_x00 exits = true) by (apply existsb_exists; eauto).
    congruence.
  - split; reflexivity.
Qed.

(** C4, as amended. When the guards pass, the transaction is not
    accepted and some exit condition has sub-rule reference [".x00"],
    the run returns the partial result with [reason] and [subRuleRef]
    replaced by those of the first such exit condition and every other
    property unchanged, and no query is sent. *)
Theorem unsuccessful_with_exit :
  accepted req = false →
  existsb is_x00 exits = true →
  ∃ (u : OutcomeResult) (before after : list OutcomeResult),
    exits = (before ++ u :: after)%list
    ∧ existsb is_x00 before = false
    ∧ subRuleRef u = ".x00"
    ∧ run = MkEff [entry "Start - handle transaction";
                   entry "Step 1 - Early exit conditions"]
              (Normal (exit_result ruleRes u))
    ∧ queries (effects run) = []
    ∧ exit_result ruleRes u !! "reason" = Some (PStr (reason u))
    ∧ exit_result ruleRes u !! "subRuleRef" = Some (PStr (subRuleRef u))
    ∧ ∀ k : string, k ≠ "reason" → k ≠ "subRuleRef" →
        exit_result ruleRes u !! k = ruleRes !! k.
Proof.
  intros Ha Hx.
  rewrite (run_unsuccessful unwrap determineOutcome ruleRes databaseManager
             _ _ _ _ _ _ _ guarded Ha).
  clear guarded. induction exits as [|e l IH]; [discriminate|].
  cbn [List.find existsb] in *. destruct (is_x00 e) eqn:E.
  - exists e, [], l. unfold exit_result.
    repeat split; try reflexivity.
    + apply String.eqb_eq, E.
    + rewrite lookup_insert_ne by discriminate. apply lookup_insert_eq.
    + apply lookup_insert_eq.
    + intros k H1 H2. rewrite !lookup_insert_ne by congruence. reflexivity.
  - destruct (IH Hx) as (u & before & after & -> & Hb & Hrest).
    exists u, (e :: before), after. cbn [existsb app]. rewrite E, Hb.
    split; [reflexivity|]. split; [reflexivity|]. exact Hrest.
Qed.

(** C6. In a run that passes the guards and the early-exit check, the
    baseline query is the first query sent and its window is
    [maxQueryRange * 5] when [baselineQueryRange] is absent or falsy and
    [baselineQueryRange] otherwise; when the run reaches the surge decision,
    the multiplier in it is [2] when [surgeThresholdMultiplier] is absent or
    falsy and [surgeThresholdMultiplier] otherwise. *)
Theorem defaults :
  accepted req = true →
  (∃ B mult : number,
     (* the window *)
     (baselineQueryRange params = None → B = mul M (of_Z 5))
     ∧ (∀ b, baselineQueryRange params = Some b → truthy b = false → B = mul M (of_Z 5))
     ∧ (∀ b, baselineQueryRange params = Some b → truthy b = true → B = b)
     ∧ head (queries (effects run))
       = Some (BaselineQuery (creditorAccountId_of cache) (now_of req) B)
     (* the multiplier *)
     ∧ (surgeThresholdMultiplier params = None → mult = of_Z 2)
     ∧ (∀ m, surgeThresholdMultiplier params = Some m → truthy m = false → mult = of_Z 2)
     ∧ (∀ m, surgeThresholdMultiplier params = Some m → truthy m = true → mult = m)
     ∧ ∀ (first : jsval) (rest : list jsval) (batches : jsval) (count : number),
         databaseManager (BaselineQuery (creditorAccountId_of cache) (now_of req) B)
         = Cursor (Resolved (VArr (first :: rest))) →
         settled (databaseManager (currentQ req M cache)) = Resolved batches →
         unwrap batches = VNum count →
         outcome run
         = Normal (determineOutcome
                     (score (gt count (mul (div (ToNumber first) (div B M)) mult)))
                     rc ruleRes)).
Proof.
  intros Ha. exists (window params M), (multiplier params).
  unfold window, multiplier, or_else.
  split; [intros ->; reflexivity|].
  split; [intros b -> ->; reflexivity|].
  split; [intros b -> ->; reflexivity|].
  fold (or_else (baselineQueryRange params) (mul M (of_Z 5))).
  fold (window params M).
  split.
  { rewrite (run_accepted unwrap determineOutcome ruleRes databaseManager
               _ _ _ _ _ _ _ guarded Ha). cbv zeta.
    destruct (databaseManager (baselineQ req params M cache))
      as [[[| | |[|x l]|]|e]|r'|e]; try reflexivity.
    destruct (settled (databaseManager (currentQ req M cache))) as [batches|e];
      try reflexivity.
    destruct (unwrap batches); reflexivity. }
  split; [intros ->; reflexivity|].
  split; [intros m -> ->; reflexivity|].
  split; [intros m -> ->; reflexivity|].
  intros first rest batches count Hb Hc Hu.
  rewrite (run_accepted unwrap determineOutcome ruleRes databaseManager
             _ _ _ _ _ _ _ guarded Ha). cbv zeta.
  unfold baselineQ. rewrite Hb, Hc, Hu. reflexivity.
Qed.

(** C7, as the code behaves. The batches of the baseline query are read off
    what the store's [query] returned, which is not awaited. When that is a
    promise, as it is awaited to be for the current-window query, the run
    throws a [TypeError] right after sending the baseline query, whatever
    the promise resolves to: the baseline data error is not thrown for an
    empty result, and a result of [[0]] fails too. *)
Theorem unawaited_baseline_query :
  accepted req = true →
  is_promise (databaseManager (baselineQ req params M cache)) = true →
  run = MkEff (setup ruleConfig req params M cache) (Throw err_unawaited)
  ∧ queries (effects run) = [baselineQ req params M cache]
  ∧ err_unawaited ≠ err_baseline.
Proof.
  intros Ha Hp.
  rewrite (run_accepted unwrap determineOutcome ruleRes databaseManager
             _ _ _ _ _ _ _ guarded Ha). cbv zeta.
  destruct (databaseManager (baselineQ req params M cache)) as [r|r|e];
    try discriminate; repeat split; discriminate.
Qed.

(** C8, as the code behaves. When the store returns the cursor of the
    baseline query itself and its batches are a non-empty array, the test on
    the baseline count lets the run through whatever the first row is: the
    current-window query is sent. This includes rows for which the baseline
    count is [NaN]. *)
Theorem baseline_count_check_passes (first : jsval) (rest : list jsval) :
  accepted req = true →
  databaseManager (baselineQ req params M cache)
  = Cursor (Resolved (VArr (first :: rest))) →
  (∃ t, effects run
        = (setup ruleConfig req params M cache ++ recent ruleConfig req M cache ++ t)%list)
  ∧ (outcome run = Throw err_baseline_type →
     settled (databaseManager (currentQ req M cache)) = Rejected err_baseline_type).
Proof.
  intros Ha Hb.
  rewrite (run_accepted unwrap determineOutcome ruleRes databaseManager
             _ _ _ _ _ _ _ guarded Ha). cbv zeta. rewrite Hb.
  destruct (settled (databaseManager (currentQ req M cache))) as [batches|e].
  - destruct (unwrap batches); cbn [effects outcome]; split; try discriminate.
    all: try (exists []; rewrite app_nil_r; reflexivity).
    eexists. reflexivity.
  - cbn [effects outcome]. split.
    + exists []. rewrite app_nil_r. reflexivity.
    + intros [= ->]. reflexivity.
Qed.



End Guarded.

End Claims.

(** C9. Two requests that differ only in the value of a present debtor
    account identifier give the same run: the same log entries and queries
    in the same order, and the same result or error. *)
Theorem dbtrAcctId_irrelevant
    (unwrap : jsval → jsval)
    (determineOutcome : number → RuleConfig → RuleResult → RuleResult)
    (ruleRes : RuleResult) (ruleConfig : option RuleConfig)
    (databaseManager : query → answer)
    (tx : Pacs002) (cdtr : option string) (d1 d2 : string) :
  truthy_string d1 = true →
  truthy_string d2 = true →
  handleTransaction unwrap
    {| transaction := tx;
       DataCache := Some {| dbtrAcctId := Some d1; cdtrAcctId := cdtr |} |}
    determineOutcome ruleRes ruleConfig databaseManager
  = handleTransaction unwrap
      {| transaction := tx;
         DataCache := Some {| dbtrAcctId := Some d2; cdtrAcctId := cdtr |} |}
      determineOutcome ruleRes ruleConfig databaseManager.
Proof.
  destruct d1 as [|a1 s1]; [discriminate|].
  destruct d2 as [|a2 s2]; [discriminate|].
  intros _ _. reflexivity.
Qed.

(** ** The claims on sample inputs *)

(** The sample request and configurations pass the guards. *)
Ltac sample_guarded := split; reflexivity.

(** Scenario A of the specification: a baseline aggregate of 50 over five
    hours is 10 per hour; 25 current transactions exceed twice that. *)
Lemma surge_decision_witness :
  outcome (Sample.run "ACCC" Sample.scenario (VArr [VNum (of_Z 50)]) (Sample.counted 25))
  = Normal (Sample.resolver (of_Z 1) Sample.scenario ∅).
Proof.
  refine (proj1 (surge_decision first_of_first Sample.resolver ∅
                   (Sample.store (VArr [VNum (of_Z 50)]) (Sample.counted 25))
                   (Some Sample.scenario) (Sample.request "ACCC")
                   Sample.scenario [Sample.x00]
                   (Sample.params_of Sample.hour None None) Sample.hour Sample.cache
                   _ (VNum (of_Z 50)) [] (Sample.counted 25) (of_Z 25) _ _ _ _) _).
  - sample_guarded.
  - reflexivity.
  - reflexivity.
  - reflexivity.
  - reflexivity.
  - vm_compute. reflexivity.
Defined.

(** Scenario B: 15 current transactions do not. *)
Example scenario_B :
  outcome (Sample.run "ACCC" Sample.scenario (VArr [VNum (of_Z 50)]) (Sample.counted 15))
  = Normal (Sample.resolver (of_Z 0) Sample.scenario ∅).
Proof. vm_compute. reflexivity. Qed.

(** Exactly twice the baseline is not a surge. *)
Example scenario_equal :
  outcome (Sample.run "ACCC" Sample.scenario (VArr [VNum (of_Z 50)]) (Sample.counted 20))
  = Normal (Sample.resolver (of_Z 0) Sample.scenario ∅).
Proof. vm_compute. reflexivity. Qed.

(** A configuration without bands fails the first guard, whatever else it
    lacks. *)
Lemma guards_fail_fast_witness :
  Sample.run "ACCC" (Sample.config_with [] [] zero None None) VUndefined VUndefined
  = MkEff [log (Some (Sample.config_with [] [] zero None None)) (Sample.request "ACCC")
             "Start - handle transaction"]
      (Throw err_bands).
Proof.
  refine (proj1 (guards_fail_fast first_of_first Sample.resolver ∅
                   (Sample.store VUndefined VUndefined)
                   (Some (Sample.config_with [] [] zero None None))
                   (Sample.request "ACCC") _)).
  right. left. reflexivity.
Defined.

(** C4 as stated fails when a guard fires first: a rejected transaction and
    a [".x00"] exit condition, but no bands. *)
Lemma early_exit_not_before_guards :
  let conf := Sample.config_with [] [Sample.x00] Sample.hour None None in
  let run := Sample.run "RJCT" conf VUndefined VUndefined in
  accepted (Sample.request "RJCT") = false
  ∧ existsb is_x00 [Sample.x00] = true
  ∧ outcome run = Throw err_bands
  ∧ outcome run ≠ Normal (exit_result ∅ Sample.x00).
Proof.
  cbv zeta.
  assert (H : outcome (Sample.run "RJCT"
                         (Sample.config_with [] [Sample.x00] Sample.hour None None)
                         VUndefined VUndefined)
              = Throw err_bands) by reflexivity.
  repeat split; try reflexivity. rewrite H. discriminate.
Qed.

(** Scenario C: a rejected transaction and a planned exit condition. *)
Lemma unsuccessful_with_exit_witness :
  ∃ u : OutcomeResult,
    reason u = "Unsuccessful"
    ∧ Sample.run "RJCT" Sample.scenario VUndefined VUndefined
      = MkEff [log (Some Sample.scenario) (Sample.request "RJCT")
                 "Start - handle transaction";
               log (Some Sample.scenario) (Sample.request "RJCT")
                 "Step 1 - Early exit conditions"]
          (Normal (exit_result ∅ u)).
Proof.
  destruct (unsuccessful_with_exit first_of_first Sample.resolver ∅
              (Sample.store VUndefined VUndefined)
              (Some Sample.scenario) (Sample.request "RJCT")
              Sample.scenario [Sample.x00]
              (Sample.params_of Sample.hour None None) Sample.hour Sample.cache
              ltac:(sample_guarded) eq_refl eq_refl)
    as (u & before & after & Hl & Hb & Hu & Hrun & _).
  exists u. split; [|exact Hrun].
  destruct before as [|b before].
  - injection Hl as <- _. reflexivity.
  - destruct before; discriminate.
Defined.

(** A rejected transaction without a planned exit condition. *)
Lemma unsuccessful_without_exit_witness :
  let conf := Sample.config_with [Sample.band] [] Sample.hour None None in
  outcome (Sample.run "RJCT" conf VUndefined VUndefined) = Throw err_no_exit
  ∧ queries (effects (Sample.run "RJCT" conf VUndefined VUndefined)) = [].
Proof.
  cbv zeta.
  destruct (unsuccessful_without_exit first_of_first Sample.resolver ∅
              (Sample.store VUndefined VUndefined)
              (Some (Sample.config_with [Sample.band] [] Sample.hour None None))
              (Sample.request "RJCT")
              (Sample.config_with [Sample.band] [] Sample.hour None None) []
              (Sample.params_of Sample.hour None None) Sample.hour Sample.cache
              ltac:(sample_guarded) eq_refl eq_refl)
    as [Hrun Hq].
  split; [|exact Hq]. unfold Sample.run. rewrite Hrun. reflexivity.
Defined.

(** A multiplier of 3 where the default is 2, and the default window: the
    first query asks for five hours, a baseline aggregate of 50 is 10 per
    hour, and 25 current transactions, a surge at twice that, are none at
    three times. *)
Lemma defaults_witness :
  let conf :=
    Sample.config_with [Sample.band] [Sample.x00] Sample.hour None (Some (of_Z 3)) in
  let run := Sample.run "ACCC" conf (VArr [VNum (of_Z 50)]) (Sample.counted 25) in
  head (queries (effects run))
  = Some (BaselineQuery "accounts/cdtrAcct_1" "2024-01-01T00:00:00.000Z"
            (mul (of_Z 3600) (of_Z 5)))
  ∧ outcome run
    = Normal (Sample.resolver
                (score (gt (of_Z 25)
                           (mul (div (of_Z 50) (div (mul (of_Z 3600) (of_Z 5)) (of_Z 3600)))
                                (of_Z 3))))
                conf ∅)
  ∧ mul (div (of_Z 50) (div (mul (of_Z 3600) (of_Z 5)) (of_Z 3600))) (of_Z 3) = of_Z 30
  ∧ outcome run = Normal (Sample.resolver (of_Z 0) conf ∅).
Proof.
  cbv zeta.
  destruct (defaults first_of_first Sample.resolver ∅
              (Sample.store (VArr [VNum (of_Z 50)]) (Sample.counted 25))
              (Some (Sample.config_with [Sample.band] [Sample.x00] Sample.hour None
                       (Some (of_Z 3))))
              (Sample.request "ACCC")
              (Sample.config_with [Sample.band] [Sample.x00] Sample.hour None
                 (Some (of_Z 3)))
              [Sample.x00]
              (Sample.params_of Sample.hour None (Some (of_Z 3))) Sample.hour Sample.cache
              ltac:(sample_guarded) eq_refl)
    as (B & mult & HB & _ & _ & Hq & _ & _ & Hm & Hrun).
  pose proof (HB eq_refl) as ->. pose proof (Hm (of_Z 3) eq_refl eq_refl) as ->.
  specialize (Hrun (VNum (of_Z 50)) [] (Sample.counted 25) (of_Z 25)
                eq_refl eq_refl eq_refl).
  unfold Sample.run. split; [exact Hq|]. split; [exact Hrun|].
  split; [vm_compute; reflexivity|]. rewrite Hrun. vm_compute. reflexivity.
Defined.

(** C7 on an input where the claim asks for a result: the sample request
    against the driver, a baseline of [[0]]. The run throws a [TypeError]
    with the baseline query as the only query sent. *)
Lemma unawaited_baseline_query_witness :
  let run := Sample.driven "ACCC" Sample.scenario (VArr [VNum zero]) (Sample.counted 1) in
  outcome run = Throw err_unawaited
  ∧ length (queries (effects run)) = 1.
Proof.
  cbv zeta.
  destruct (unawaited_baseline_query first_of_first Sample.resolver ∅
              (Sample.driver (VArr [VNum zero]) (Sample.counted 1))
              (Some Sample.scenario) (Sample.request "ACCC")
              Sample.scenario [Sample.x00]
              (Sample.params_of Sample.hour None None) Sample.hour Sample.cache
              ltac:(sample_guarded) eq_refl eq_refl)
    as (Hrun & Hq & _).
  unfold Sample.driven. rewrite Hq, Hrun. split; reflexivity.
Defined.

(** Scenario D against the driver: an empty baseline result ends in the same
    [TypeError], not in the baseline data error. *)
Example scenario_D_driven :
  outcome (Sample.driven "ACCC" Sample.scenario (VArr []) (Sample.counted 25))
  = Throw err_unawaited.
Proof. vm_compute. reflexivity. Qed.

(** Against a store that returns the cursor itself, a baseline count of
    zero is a count. *)
Example scenario_zero_baseline :
  outcome (Sample.run "ACCC" Sample.scenario (VArr [VNum zero]) (Sample.counted 1))
  = Normal (Sample.resolver (of_Z 1) Sample.scenario ∅).
Proof. vm_compute. reflexivity. Qed.

(** C8 on an input where the claim asks for an error: the first row of the
    baseline result is a plain object, the baseline count is [NaN], and the run
    still sends the current-window query. *)
Lemma baseline_count_check_passes_witness :
  is_nan (baselineCount_of VObj
            (window (Sample.params_of Sample.hour None None) Sample.hour) Sample.hour)
  = true
  ∧ ∃ t, effects (Sample.run "ACCC" Sample.scenario (VArr [VObj]) (Sample.counted 25))
         = (setup (Some Sample.scenario) (Sample.request "ACCC")
              (Sample.params_of Sample.hour None None) Sample.hour Sample.cache
            ++ recent (Some Sample.scenario) (Sample.request "ACCC")
                 Sample.hour Sample.cache ++ t)%list.
Proof.
  split; [reflexivity|].
  exact (proj1 (baseline_count_check_passes first_of_first Sample.resolver ∅
                  (Sample.store (VArr [VObj]) (Sample.counted 25))
                  (Some Sample.scenario) (Sample.request "ACCC")
                  Sample.scenario [Sample.x00]
                  (Sample.params_of Sample.hour None None) Sample.hour Sample.cache
                  ltac:(sample_guarded) VObj [] eq_refl eq_refl)).
Defined.

(** On that input the run ends with a verdict, not with an error: nothing
    is greater than [NaN], so the score is 0. *)
Example nan_baseline_is_no_surge :
  outcome (Sample.run "ACCC" Sample.scenario (VArr [VObj]) (Sample.counted 25))
  = Normal (Sample.resolver (of_Z 0) Sample.scenario ∅).
Proof. vm_compute. reflexivity. Qed.

(** The same with numbers only: a window ratio that underflows to zero and
    a raw baseline of zero give a baseline count of [NaN]. *)
Example nan_baseline_from_numbers :
  let conf :=
    Sample.config_with [Sample.band] [Sample.x00] Sample.huge (Some Sample.tiny) None in
  is_nan (baselineCount_of (VNum zero) Sample.tiny Sample.huge) = true
  ∧ outcome (Sample.run "ACCC" conf (VArr [VNum zero]) (Sample.counted 25))
    = Normal (Sample.resolver (of_Z 0) conf ∅).
Proof. cbv zeta. split; vm_compute; reflexivity. Qed.

(** Two debtor account identifiers, one run. *)
Lemma dbtrAcctId_irrelevant_witness :
  handleTransaction first_of_first
    {| transaction := transaction (Sample.request "ACCC");
       DataCache := Some {| dbtrAcctId := Some "dbtrAcct_1";
                            cdtrAcctId := Some "cdtrAcct_1" |} |}
    Sample.resolver ∅ (Some Sample.scenario)
    (Sample.store (VArr [VNum (of_Z 50)]) (Sample.counted 25))
  = handleTransaction first_of_first
      {| transaction := transaction (Sample.request "ACCC");
         DataCache := Some {| dbtrAcctId := Some "dbtrAcct_2";
                              cdtrAcctId := Some "cdtrAcct_1" |} |}
      Sample.resolver ∅ (Some Sample.scenario)
      (Sample.store (VArr [VNum (of_Z 50)]) (Sample.counted 25)).
Proof.
  apply dbtrAcctId_irrelevant; reflexivity.
Defined.





(** * Further properties of the rule *)

(** ** More facts about doubles *)

Section Order.

Local Open Scope Z_scope.

(** Finite numbers of one sign are ordered by exponent, then mantissa. *)
Lemma lex_compare_lt (e1 e2 : Z) (m1 m2 : positive) :
  match e1 ?= e2 with
  | Lt => Lt
  | Gt => Gt
  | Eq => Pos.compare_cont Eq m1 m2
  end = Lt ↔ e1 < e2 ∨ (e1 = e2 ∧ (m1 < m2)%positive).
Proof.
  change (Pos.compare_cont Eq m1 m2) with (m1 ?= m2)%positive.
  destruct (Z.compare_spec e1 e2), (Pos.compare_spec m1 m2); split;
    try discriminate; try reflexivity; lia.
Qed.

Lemma lex_compare_gt (e1 e2 : Z) (m1 m2 : positive) :
  match e1 ?= e2 with
  | Lt => Gt
  | Gt => Lt
  | Eq => CompOpp (Pos.compare_cont Eq m1 m2)
  end = Lt ↔ e2 < e1 ∨ (e1 = e2 ∧ (m2 < m1)%positive).
Proof.
  change (Pos.compare_cont Eq m1 m2) with (m1 ?= m2)%positive.
  destruct (Z.compare_spec e1 e2), (Pos.compare_spec m1 m2); cbn [CompOpp]; split;
    try discriminate; try reflexivity; lia.
Qed.

(** The strict order of doubles is transitive. *)
Lemma SFltb_trans (a b c : number) :
  SFltb a b = true → SFltb b c = true → SFltb a c = true.
Proof.
  unfold SFltb.
  destruct a as [sa|sa| |sa ma ea], b as [sb|sb| |sb mb eb], c as [sc|sc| |sc mc ec];
    cbn; try discriminate; try reflexivity;
    try (destruct sa; discriminate); try (destruct sb; discriminate);
    try (destruct sc; discriminate);
    try (destruct sa, sb; discriminate); try (destruct sb, sc; discriminate);
    try (destruct sa, sb, sc; discriminate || reflexivity).
  destruct sa, sb, sc; try discriminate; try reflexivity.
  - pose proof (lex_compare_gt ea eb ma mb) as H1.
    pose proof (lex_compare_gt eb ec mb mc) as H2.
    pose proof (lex_compare_gt ea ec ma mc) as H3.
    destruct (match ea ?= eb with Lt => Gt | Gt => Lt | Eq => _ end); try discriminate.
    destruct (match eb ?= ec with Lt => Gt | Gt => Lt | Eq => _ end); try discriminate.
    intros _ _. apply proj1 in H1, H2. specialize (H1 eq_refl). specialize (H2 eq_refl).
    assert (E : match ea ?= ec with
                | Lt => Gt | Gt => Lt | Eq => CompOpp (Pos.compare_cont Eq ma mc)
                end = Lt) by (apply H3; lia).
    rewrite E. reflexivity.
  - pose proof (lex_compare_lt ea eb ma mb) as H1.
    pose proof (lex_compare_lt eb ec mb mc) as H2.
    pose proof (lex_compare_lt ea ec ma mc) as H3.
    destruct (match ea ?= eb with Lt => Lt | Gt => Gt | Eq => _ end); try discriminate.
    destruct (match eb ?= ec with Lt => Lt | Gt => Gt | Eq => _ end); try discriminate.
    intros _ _. apply proj1 in H1, H2. specialize (H1 eq_refl). specialize (H2 eq_refl).
    assert (E : match ea ?= ec with
                | Lt => Lt | Gt => Gt | Eq => Pos.compare_cont Eq ma mc
                end = Lt) by (apply H3; lia).
    rewrite E. reflexivity.
Qed.

End Order.

(** Nothing is greater than a threshold that is [NaN]. *)
Lemma gt_nan_threshold (count baselineCount mult : number) :
  is_nan baselineCount = true → gt count (mul baselineCount mult) = false.
Proof. destruct baselineCount; try discriminate. reflexivity. Qed.

(** A zero raw baseline against a non-zero ratio and a finite multiplier
    gives a zero threshold, which every positive count exceeds. *)
Lemma gt_zero_threshold (count raw ratio mult : number) :
  is_zero raw = true → truthy ratio = true →
  (∃ s m e, mult = S754_finite s m e) →
  gt count (mul (div raw ratio) mult) = gt count zero.
Proof.
  intros Hr Ht (s & m & e & ->).
  destruct raw as [sr| | |]; try discriminate.
  destruct ratio as [| sq| |sq mq eq]; try discriminate;
    destruct count; reflexivity.
Qed.

(** The sign of a zero raw baseline does not show in the comparison with the
    threshold. *)
Lemma gt_reread (count n ratio mult : number) :
  gt count (mul (div (reread n) ratio) mult) = gt count (mul (div n ratio) mult).
Proof.
  destruct n as [s| | |]; try reflexivity.
  destruct s; [|reflexivity].
  destruct ratio as [sr|sr| |sr mr er]; try reflexivity;
    destruct mult as [sm|sm| |sm mm em]; try reflexivity;
    destruct count as [sc|sc| |sc mc ec]; reflexivity.
Qed.

(** ** Every run, case by case *)

Section Paths.

Variable unwrap : jsval → jsval.
Variable determineOutcome : number → RuleConfig → RuleResult → RuleResult.
Variable ruleRes : RuleResult.
Variable databaseManager : query → answer.
Variable ruleConfig : option RuleConfig.
Variable req : RuleRequest.

Local Abbreviation run :=
  (handleTransaction unwrap req determineOutcome ruleRes ruleConfig databaseManager).
Local Abbreviation entry message := (log ruleConfig req message).

(** A run either stops at a guard or works on a guarded input. *)
Lemma run_cases :
  (∃ message, run = MkEff [entry "Start - handle transaction"] (Throw message))
  ∨ (∃ rc exits params M cache, Guarded ruleConfig req rc exits params M cache).
Proof.
  destruct (first_violation ruleConfig req) as [message|] eqn:E.
  - left. exists message. apply run_violation, E.
  - right. apply no_violation_guarded, E.
Qed.

(** X4. A run that returns, returns one of three results: the early-exit
    result of the first [".x00"] exit condition when the transaction is not
    accepted, and otherwise what the outcome resolver makes of score 0 or of
    score 1. The resolver is never given another score. *)
Theorem normal_results (r : RuleResult) :
  outcome run = Normal r →
  (accepted req = false
   ∧ ∃ exits u, ruleConfig ?> config ?> exitConditions = Some exits
                ∧ List.find is_x00 exits = Some u
                ∧ r = exit_result ruleRes u)
  ∨ (accepted req = true
     ∧ ∃ rc, ruleConfig = Some rc
             ∧ (r = determineOutcome (of_Z 0) rc ruleRes
                ∨ r = determineOutcome (of_Z 1) rc ruleRes)).
Proof.
  destruct run_cases as [(message & ->)|(rc & exits & params & M & cache & G)];
    [discriminate|].
  destruct (accepted req) eqn:Ha.
  - rewrite (run_accepted unwrap determineOutcome ruleRes databaseManager
               _ _ _ _ _ _ _ G Ha). cbv zeta.
    destruct (databaseManager (baselineQ req params M cache))
      as [[[| | |[|x l]|]|e]|r'|e];
      try discriminate.
    destruct (settled (databaseManager (currentQ req M cache))) as [batches|e]; try discriminate.
    destruct (unwrap batches); try discriminate.
    intros [= <-]. right. split; [reflexivity|]. exists rc.
    split; [apply (guarded_config _ _ _ _ _ _ _ G)|].
    unfold score. destruct (gt _ _); auto.
  - rewrite (run_unsuccessful unwrap determineOutcome ruleRes databaseManager
               _ _ _ _ _ _ _ G Ha).
    destruct (List.find is_x00 exits) as [u|] eqn:E; [|discriminate].
    intros [= <-]. left. split; [reflexivity|]. exists exits, u.
    split; [apply (guarded_exits _ _ _ _ _ _ _ G)|]. split; [exact E|reflexivity].
Qed.

(** X5. A run sends no query, or the baseline query alone, or the baseline
    query and then the current-window query; the second is sent only after
    the first gave a non-empty array. *)
Theorem query_discipline :
  queries (effects run) = []
  ∨ ∃ params M cache,
      queries (effects run) = [baselineQ req params M cache]
      ∨ (queries (effects run) = [baselineQ req params M cache; currentQ req M cache]
         ∧ ∃ first rest,
             databaseManager (baselineQ req params M cache)
             = Cursor (Resolved (VArr (first :: rest)))).
Proof.
  destruct run_cases as [(message & ->)|(rc & exits & params & M & cache & G)];
    [left; reflexivity|].
  destruct (accepted req) eqn:Ha.
  - right. exists params, M, cache.
    rewrite (run_accepted unwrap determineOutcome ruleRes databaseManager
               _ _ _ _ _ _ _ G Ha). cbv zeta.
    destruct (databaseManager (baselineQ req params M cache))
      as [[[| | |[|x l]|]|e]|r'|e];
      try (left; reflexivity).
    right. split; [|eauto].
    destruct (settled (databaseManager (currentQ req M cache))) as [batches|e]; [|reflexivity].
    destruct (unwrap batches); reflexivity.
  - left. rewrite (run_unsuccessful unwrap determineOutcome ruleRes databaseManager
                     _ _ _ _ _ _ _ G Ha). reflexivity.
Qed.

(** X6. The closing log entry is written exactly by the runs of accepted
    transactions that return: an early exit and every error leave the log
    without it. *)
Theorem end_entry_iff_verdict :
  In (entry "End - handle transaction") (effects run)
  ↔ accepted req = true ∧ ∃ r, outcome run = Normal r.
Proof.
  destruct run_cases as [(message & ->)|(rc & exits & params & M & cache & G)].
  { cbn. split; [intros [H|[]]; discriminate H|intros [_ [r H]]; discriminate H]. }
  destruct (accepted req) eqn:Ha.
  - rewrite (run_accepted unwrap determineOutcome ruleRes databaseManager
               _ _ _ _ _ _ _ G Ha). cbv zeta. unfold setup, recent, log.
    destruct (databaseManager (baselineQ req params M cache))
      as [[[| | |[|x l]|]|e]|r'|e];
      try (cbn; split; [intuition discriminate|intros [_ [r H]]; discriminate H]).
    destruct (settled (databaseManager (currentQ req M cache))) as [batches|e];
      try (cbn; split; [intuition discriminate|intros [_ [r H]]; discriminate H]).
    destruct (unwrap batches);
      try (cbn; split; [intuition discriminate|intros [_ [r H]]; discriminate H]).
    cbn. split; [eauto|]. intros _. do 8 right. left. reflexivity.
  - rewrite (run_unsuccessful unwrap determineOutcome ruleRes databaseManager
               _ _ _ _ _ _ _ G Ha). unfold log. cbn.
    split; [intuition discriminate|intros [H _]; discriminate H].
Qed.

(** X16. Against a store whose [query] returns a promise for every query,
    no accepted transaction gets a verdict: the run throws, without the
    closing log entry and with at most the baseline query sent. *)
Theorem promises_never_decide :
  (∀ q, is_promise (databaseManager q) = true) →
  accepted req = true →
  (∃ message, outcome run = Throw message)
  ∧ ¬ In (entry "End - handle transaction") (effects run)
  ∧ (List.length (queries (effects run)) ≤ 1)%nat.
Proof.
  intros Hp Ha.
  destruct run_cases as [(message & ->)|(rc & exits & params & M & cache & G)].
  { cbn. split; [eauto|]. split; [|lia]. intros [H|[]]. discriminate H. }
  rewrite (run_accepted unwrap determineOutcome ruleRes databaseManager
             _ _ _ _ _ _ _ G Ha). cbv zeta.
  specialize (Hp (baselineQ req params M cache)).
  destruct (databaseManager (baselineQ req params M cache)) as [r|r|e];
    try discriminate Hp.
  all: cbn; split; [eauto|]; split; [|lia]; unfold log; intuition discriminate.
Qed.

(** X10. The log entries and the queries of a run do not depend on the
    partial result or on the outcome resolver. *)
Theorem effects_ignore_result
    (determineOutcome' : number → RuleConfig → RuleResult → RuleResult)
    (ruleRes' : RuleResult) :
  effects run
  = effects (handleTransaction unwrap req determineOutcome' ruleRes' ruleConfig
               databaseManager).
Proof.
  destruct (first_violation ruleConfig req) as [message|] eqn:E.
  - rewrite !(run_violation _ _ _ _ _ _ _ E). reflexivity.
  - destruct (no_violation_guarded _ _ E) as (rc & exits & params & M & cache & G).
    destruct (accepted req) eqn:Ha.
    + rewrite !(run_accepted unwrap _ _ databaseManager _ _ _ _ _ _ _ G Ha). cbv zeta.
      destruct (databaseManager (baselineQ req params M cache))
      as [[[| | |[|x l]|]|e]|r'|e];
        try reflexivity.
      destruct (settled (databaseManager (currentQ req M cache))) as [batches|e]; [|reflexivity].
      destruct (unwrap batches); reflexivity.
    + rewrite !(run_unsuccessful unwrap _ _ databaseManager _ _ _ _ _ _ _ G Ha).
      reflexivity.
Qed.

Section Guarded.

Variable rc : RuleConfig.
Variable exits : list OutcomeResult.
Variable params : Parameters.
Variable M : number.
Variable cache : DataCacheT.
Hypothesis guarded : Guarded ruleConfig req rc exits params M cache.

(** X1. When the store returned the cursor of the baseline query itself
    with a non-empty array and the current-window result unwraps to [null]
    or [undefined], the run throws the history error after both queries; the
    outcome resolver is not consulted. *)
Theorem current_unavailable (first : jsval) (rest : list jsval) (batches : jsval) :
  accepted req = true →
  databaseManager (baselineQ req params M cache)
  = Cursor (Resolved (VArr (first :: rest))) →
  settled (databaseManager (currentQ req M cache)) = Resolved batches →
  loosely_null (unwrap batches) = true →
  run = MkEff (setup ruleConfig req params M cache ++ recent ruleConfig req M cache)
          (Throw err_history).
Proof.
  intros Ha Hb Hc Hn.
  rewrite (run_accepted unwrap determineOutcome ruleRes databaseManager
             _ _ _ _ _ _ _ guarded Ha). cbv zeta. rewrite Hb, Hc.
  destruct (unwrap batches); try discriminate; reflexivity.
Qed.

(** X2. When the store returned the cursor of the baseline query itself
    with a non-empty array and the current-window result unwraps to
    something that is neither [null], [undefined] nor a number, the run
    throws the type-mismatch error after both queries. *)
Theorem current_mismatch (first : jsval) (rest : list jsval) (batches : jsval) :
  accepted req = true →
  databaseManager (baselineQ req params M cache)
  = Cursor (Resolved (VArr (first :: rest))) →
  settled (databaseManager (currentQ req M cache)) = Resolved batches →
  loosely_null (unwrap batches) = false →
  typeof_number (unwrap batches) = false →
  run = MkEff (setup ruleConfig req params M cache ++ recent ruleConfig req M cache)
          (Throw err_mismatch).
Proof.
  intros Ha Hb Hc Hn Ht.
  rewrite (run_accepted unwrap determineOutcome ruleRes databaseManager
             _ _ _ _ _ _ _ guarded Ha). cbv zeta. rewrite Hb, Hc.
  destruct (unwrap batches); try discriminate; reflexivity.
Qed.

(** X3. A rejection ends the run with the store's own error wherever the
    code awaits it. Batches of the baseline cursor that reject end the run
    with the baseline query as the only query sent; a current-window query
    that rejects, be it the promise of its cursor or its batches, ends the
    run right after it. *)
Theorem rejection_propagates (e : string) :
  accepted req = true →
  (databaseManager (baselineQ req params M cache) = Cursor (Rejected e) →
   run = MkEff (setup ruleConfig req params M cache) (Throw e)
   ∧ queries (effects run) = [baselineQ req params M cache])
  ∧ (∀ (first : jsval) (rest : list jsval),
       databaseManager (baselineQ req params M cache)
       = Cursor (Resolved (VArr (first :: rest))) →
       settled (databaseManager (currentQ req M cache)) = Rejected e →
       run = MkEff (setup ruleConfig req params M cache ++ recent ruleConfig req M cache)
               (Throw e)).
Proof.
  intros Ha.
  rewrite (run_accepted unwrap determineOutcome ruleRes databaseManager
             _ _ _ _ _ _ _ guarded Ha). cbv zeta.
  split.
  - intros ->. split; reflexivity.
  - intros first rest -> ->. reflexivity.
Qed.

(** X7. In a run that reaches the surge decision, the verdict is monotone
    in the current count: a count greater than one that would be a surge is
    a surge. *)
Theorem surge_monotone (first : jsval) (rest : list jsval) (batches : jsval)
    (count smaller : number) :
  accepted req = true →
  databaseManager (baselineQ req params M cache)
  = Cursor (Resolved (VArr (first :: rest))) →
  settled (databaseManager (currentQ req M cache)) = Resolved batches →
  unwrap batches = VNum count →
  gt smaller (mul (baselineCount_of first (window params M) M) (multiplier params)) = true →
  gt count smaller = true →
  outcome run = Normal (determineOutcome (of_Z 1) rc ruleRes).
Proof.
  intros Ha Hb Hc Hu Hs Hg.
  rewrite (run_accepted unwrap determineOutcome ruleRes databaseManager
             _ _ _ _ _ _ _ guarded Ha). cbv zeta. rewrite Hb, Hc, Hu. cbn [outcome].
  unfold gt in *. rewrite (SFltb_trans _ _ _ Hs Hg). reflexivity.
Qed.

(** X8. In a run that reaches the surge decision with a baseline count
    that is [NaN] (the first baseline row is not numeric, or the window
    ratio and the raw baseline are both zero), no count is a surge: the run
    returns the resolver's result for score 0. *)
Theorem nan_baseline_no_surge (first : jsval) (rest : list jsval) (batches : jsval)
    (count : number) :
  accepted req = true →
  databaseManager (baselineQ req params M cache)
  = Cursor (Resolved (VArr (first :: rest))) →
  is_nan (baselineCount_of first (window params M) M) = true →
  settled (databaseManager (currentQ req M cache)) = Resolved batches →
  unwrap batches = VNum count →
  outcome run = Normal (determineOutcome (of_Z 0) rc ruleRes).
Proof.
  intros Ha Hb Hn Hc Hu.
  rewrite (run_accepted unwrap determineOutcome ruleRes databaseManager
             _ _ _ _ _ _ _ guarded Ha). cbv zeta. rewrite Hb, Hc, Hu. cbn [outcome].
  rewrite (gt_nan_threshold _ _ _ Hn). reflexivity.
Qed.

(** X9. In a run that reaches the surge decision with a raw baseline of
    zero, a window ratio that is neither zero nor [NaN] and a finite
    multiplier, the verdict only depends on the sign of the current count:
    every positive count is a surge. *)
Theorem no_history_verdict (first : jsval) (rest : list jsval) (batches : jsval)
    (count : number) :
  accepted req = true →
  databaseManager (baselineQ req params M cache)
  = Cursor (Resolved (VArr (first :: rest))) →
  is_zero (ToNumber first) = true →
  truthy (div (window params M) M) = true →
  (∃ s m e, multiplier params = S754_finite s m e) →
  settled (databaseManager (currentQ req M cache)) = Resolved batches →
  unwrap batches = VNum count →
  outcome run = Normal (determineOutcome (score (gt count zero)) rc ruleRes).
Proof.
  intros Ha Hb Hz Ht Hm Hc Hu.
  rewrite (run_accepted unwrap determineOutcome ruleRes databaseManager
             _ _ _ _ _ _ _ guarded Ha). cbv zeta. rewrite Hb, Hc, Hu. cbn [outcome].
  unfold baselineCount_of. rewrite (gt_zero_threshold _ _ _ _ Hz Ht Hm). reflexivity.
Qed.

(** X11. A missing creditor account identifier stops nothing: the guards
    only look at the debtor's, and the queries are sent for the account
    ["accounts/undefined"]. *)
Theorem missing_creditor_is_queried :
  accepted req = true →
  cdtrAcctId cache = None →
  head (queries (effects run))
  = Some (BaselineQuery "accounts/undefined" (now_of req) (window params M)).
Proof.
  intros Ha Hc.
  rewrite (run_accepted unwrap determineOutcome ruleRes databaseManager
             _ _ _ _ _ _ _ guarded Ha). cbv zeta.
  unfold setup, baselineQ, creditorAccountId_of. rewrite Hc.
  destruct (databaseManager _) as [[[| | |[|x l]|]|e]|r'|e]; try reflexivity.
  destruct (settled (databaseManager _)) as [batches|e]; [|reflexivity].
  destruct (unwrap batches); reflexivity.
Qed.

(** X12. Of a baseline result only the first row is read, and the store is
    consulted on the two queries only: two stores that return the cursor of
    the baseline query itself, whose baseline results start with the same
    row and whose current-window queries come to the same, give the same
    run. *)
Theorem only_first_row (databaseManager' : query → answer)
    (first : jsval) (rest rest' : list jsval) :
  accepted req = true →
  databaseManager (baselineQ req params M cache)
  = Cursor (Resolved (VArr (first :: rest))) →
  databaseManager' (baselineQ req params M cache)
  = Cursor (Resolved (VArr (first :: rest'))) →
  settled (databaseManager (currentQ req M cache))
  = settled (databaseManager' (currentQ req M cache)) →
  run = handleTransaction unwrap req determineOutcome ruleRes ruleConfig databaseManager'.
Proof.
  intros Ha Hb Hb' Hc.
  rewrite !(run_accepted unwrap determineOutcome ruleRes _ _ _ _ _ _ _ _ guarded Ha).
  cbv zeta. rewrite Hb, Hb', Hc. reflexivity.
Qed.

(** X13. For two such stores, a baseline count that comes wrapped in a
    batch, [[[n]]] instead of [[n]], gives the same run: the division
    coerces the one-element array to its number. *)
Theorem wrapped_baseline_row (databaseManager' : query → answer)
    (n : number) (rest rest' : list jsval) :
  accepted req = true →
  databaseManager (baselineQ req params M cache)
  = Cursor (Resolved (VArr (VNum n :: rest))) →
  databaseManager' (baselineQ req params M cache)
  = Cursor (Resolved (VArr (VArr [VNum n] :: rest'))) →
  settled (databaseManager (currentQ req M cache))
  = settled (databaseManager' (currentQ req M cache)) →
  run = handleTransaction unwrap req determineOutcome ruleRes ruleConfig databaseManager'.
Proof.
  intros Ha Hb Hb' Hc.
  rewrite !(run_accepted unwrap determineOutcome ruleRes _ _ _ _ _ _ _ _ guarded Ha).
  cbv zeta. rewrite Hb, Hb', Hc.
  destruct (settled (databaseManager' (currentQ req M cache))) as [batches|e];
    [|reflexivity].
  destruct (unwrap batches); try reflexivity.
  unfold baselineCount_of. cbn [ToNumber]. rewrite gt_reread. reflexivity.
Qed.

(** X14. When the store returns the cursor of the baseline query itself,
    batches that are not an array, or an empty array, make the run throw the
    baseline data error with the baseline query as the only query sent. The
    one-element array [[0]] lets the run go on: the current-window query is
    sent, and the run returns a result as soon as that query gives a
    count. *)
Theorem baseline_unavailable :
  accepted req = true →
  (∀ v : jsval,
     databaseManager (baselineQ req params M cache) = Cursor (Resolved v) →
     isArray v = false ∨ v = VArr [] →
     run = MkEff (setup ruleConfig req params M cache) (Throw err_baseline)
     ∧ queries (effects run) = [baselineQ req params M cache])
  ∧ (databaseManager (baselineQ req params M cache)
     = Cursor (Resolved (VArr [VNum zero])) →
     (∃ t, effects run
           = (setup ruleConfig req params M cache ++ recent ruleConfig req M cache ++ t)%list)
     ∧ ∀ (batches : jsval) (count : number),
         settled (databaseManager (currentQ req M cache)) = Resolved batches →
         unwrap batches = VNum count →
         ∃ r, outcome run = Normal r).
Proof.
  intros Ha.
  rewrite (run_accepted unwrap determineOutcome ruleRes databaseManager
             _ _ _ _ _ _ _ guarded Ha). cbv zeta.
  split.
  - intros v -> [Hv| ->]; [|split; reflexivity].
    destruct v as [| | |l|]; try discriminate; split; reflexivity.
  - intros ->. split.
    + destruct (settled (databaseManager (currentQ req M cache))) as [batches|e].
      * destruct (unwrap batches); cbn [effects]; eauto using app_nil_r.
        all: try (exists []; rewrite app_nil_r; reflexivity).
      * exists []. rewrite app_nil_r. reflexivity.
    + intros batches count -> ->. eauto.
Qed.

(** X15. The store's answer to the current-window query is awaited before
    its batches are read: whether the store returns the cursor or a promise
    of it makes no difference to the run. Two stores that answer the
    baseline query alike and whose current-window queries come to the same
    give the same run. *)
Theorem current_query_awaited (databaseManager' : query → answer) :
  accepted req = true →
  databaseManager (baselineQ req params M cache)
  = databaseManager' (baselineQ req params M cache) →
  settled (databaseManager (currentQ req M cache))
  = settled (databaseManager' (currentQ req M cache)) →
  run = handleTransaction unwrap req determineOutcome ruleRes ruleConfig databaseManager'.
Proof.
  intros Ha Hb Hc.
  rewrite !(run_accepted unwrap determineOutcome ruleRes _ _ _ _ _ _ _ _ guarded Ha).
  cbv zeta. rewrite Hb, Hc. reflexivity.
Qed.

End Guarded.

End Paths.

(** ** The further properties on sample inputs *)

(** An empty current-window result. *)
Lemma current_unavailable_witness :
  outcome (Sample.run "ACCC" Sample.scenario (VArr [VNum (of_Z 50)]) (VArr []))
  = Throw err_history.
Proof.
  unfold Sample.run.
  rewrite (current_unavailable first_of_first Sample.resolver ∅
             (Sample.store (VArr [VNum (of_Z 50)]) (VArr []))
             (Some Sample.scenario) (Sample.request "ACCC")
             Sample.scenario [Sample.x00]
             (Sample.params_of Sample.hour None None) Sample.hour Sample.cache
             ltac:(sample_guarded) (VNum (of_Z 50)) [] (VArr [])
             eq_refl eq_refl eq_refl eq_refl).
  reflexivity.
Defined.

(** A current-window result that holds an object. *)
Lemma current_mismatch_witness :
  outcome (Sample.run "ACCC" Sample.scenario (VArr [VNum (of_Z 50)]) (VArr [VArr [VObj]]))
  = Throw err_mismatch.
Proof.
  unfold Sample.run.
  rewrite (current_mismatch first_of_first Sample.resolver ∅
             (Sample.store (VArr [VNum (of_Z 50)]) (VArr [VArr [VObj]]))
             (Some Sample.scenario) (Sample.request "ACCC")
             Sample.scenario [Sample.x00]
             (Sample.params_of Sample.hour None None) Sample.hour Sample.cache
             ltac:(sample_guarded) (VNum (of_Z 50)) [] (VArr [VArr [VObj]])
             eq_refl eq_refl eq_refl eq_refl eq_refl).
  reflexivity.
Defined.

(** A store whose cursors time out. *)
Lemma rejection_propagates_witness :
  outcome (handleTransaction first_of_first (Sample.request "ACCC") Sample.resolver ∅
             (Some Sample.scenario) (λ _, Cursor (Rejected "timeout")))
  = Throw "timeout".
Proof.
  destruct (proj1 (rejection_propagates first_of_first Sample.resolver ∅
                     (λ _, Cursor (Rejected "timeout"))
                     (Some Sample.scenario) (Sample.request "ACCC")
                     Sample.scenario [Sample.x00]
                     (Sample.params_of Sample.hour None None) Sample.hour Sample.cache
                     ltac:(sample_guarded) "timeout" eq_refl) eq_refl)
    as [Hrun _].
  rewrite Hrun. reflexivity.
Defined.

(** Scenario A returns the resolver's result for score 1. *)
Lemma normal_results_witness :
  accepted (Sample.request "ACCC") = true
  ∧ ∃ rc, Some Sample.scenario = Some rc
          ∧ (Sample.resolver (of_Z 1) Sample.scenario ∅ = Sample.resolver (of_Z 0) rc ∅
             ∨ Sample.resolver (of_Z 1) Sample.scenario ∅ = Sample.resolver (of_Z 1) rc ∅).
Proof.
  assert (H : outcome (Sample.run "ACCC" Sample.scenario (VArr [VNum (of_Z 50)])
                         (Sample.counted 25))
              = Normal (Sample.resolver (of_Z 1) Sample.scenario ∅))
    by (vm_compute; reflexivity).
  destruct (normal_results first_of_first Sample.resolver ∅
              (Sample.store (VArr [VNum (of_Z 50)]) (Sample.counted 25))
              (Some Sample.scenario) (Sample.request "ACCC") _ H) as [[Hn _]|Hy].
  - discriminate Hn.
  - exact Hy.
Defined.

(** 21 transactions are a surge against a threshold of 20, so 25 are. *)
Lemma surge_monotone_witness :
  outcome (Sample.run "ACCC" Sample.scenario (VArr [VNum (of_Z 50)]) (Sample.counted 25))
  = Normal (Sample.resolver (of_Z 1) Sample.scenario ∅).
Proof.
  refine (surge_monotone first_of_first Sample.resolver ∅
            (Sample.store (VArr [VNum (of_Z 50)]) (Sample.counted 25))
            (Some Sample.scenario) (Sample.request "ACCC")
            Sample.scenario [Sample.x00]
            (Sample.params_of Sample.hour None None) Sample.hour Sample.cache
            ltac:(sample_guarded) (VNum (of_Z 50)) [] (Sample.counted 25)
            (of_Z 25) (of_Z 21) eq_refl eq_refl eq_refl eq_refl _ _);
    vm_compute; reflexivity.
Defined.

(** A first row that is an object. *)
Lemma nan_baseline_no_surge_witness :
  outcome (Sample.run "ACCC" Sample.scenario (VArr [VObj]) (Sample.counted 1000))
  = Normal (Sample.resolver (of_Z 0) Sample.scenario ∅).
Proof.
  refine (nan_baseline_no_surge first_of_first Sample.resolver ∅
            (Sample.store (VArr [VObj]) (Sample.counted 1000))
            (Some Sample.scenario) (Sample.request "ACCC")
            Sample.scenario [Sample.x00]
            (Sample.params_of Sample.hour None None) Sample.hour Sample.cache
            ltac:(sample_guarded) VObj [] (Sample.counted 1000)
            (of_Z 1000) eq_refl eq_refl _ eq_refl eq_refl).
  vm_compute. reflexivity.
Defined.

(** No history and one transaction. *)
Lemma no_history_verdict_witness :
  outcome (Sample.run "ACCC" Sample.scenario (VArr [VNum zero]) (Sample.counted 1))
  = Normal (Sample.resolver (of_Z 1) Sample.scenario ∅).
Proof.
  refine (no_history_verdict first_of_first Sample.resolver ∅
            (Sample.store (VArr [VNum zero]) (Sample.counted 1))
            (Some Sample.scenario) (Sample.request "ACCC")
            Sample.scenario [Sample.x00]
            (Sample.params_of Sample.hour None None) Sample.hour Sample.cache
            ltac:(sample_guarded) (VNum zero) [] (Sample.counted 1)
            (of_Z 1) eq_refl eq_refl eq_refl _ _ eq_refl eq_refl).
  - vm_compute. reflexivity.
  - eexists _, _, _. vm_compute. reflexivity.
Defined.

(** A data cache with the debtor's account only. *)
Lemma missing_creditor_is_queried_witness :
  let req :=
    {| transaction := transaction (Sample.request "ACCC");
       DataCache := Some {| dbtrAcctId := Some "dbtrAcct_1"; cdtrAcctId := None |} |} in
  head (queries (effects (handleTransaction first_of_first req Sample.resolver ∅
                            (Some Sample.scenario)
                            (Sample.store (VArr [VNum (of_Z 50)]) (Sample.counted 25)))))
  = Some (BaselineQuery "accounts/undefined" "2024-01-01T00:00:00.000Z"
            (mul (of_Z 3600) (of_Z 5))).
Proof.
  cbv zeta.
  exact (missing_creditor_is_queried first_of_first Sample.resolver ∅
           (Sample.store (VArr [VNum (of_Z 50)]) (Sample.counted 25))
           (Some Sample.scenario)
           {| transaction := transaction (Sample.request "ACCC");
              DataCache := Some {| dbtrAcctId := Some "dbtrAcct_1";
                                   cdtrAcctId := None |} |}
           Sample.scenario [Sample.x00]
           (Sample.params_of Sample.hour None None) Sample.hour
           {| dbtrAcctId := Some "dbtrAcct_1"; cdtrAcctId := None |}
           ltac:(sample_guarded) eq_refl eq_refl).
Defined.

(** Rows after the first change nothing. *)
Lemma only_first_row_witness :
  Sample.run "ACCC" Sample.scenario (VArr [VNum (of_Z 50); VNum (of_Z 7)])
    (Sample.counted 25)
  = Sample.run "ACCC" Sample.scenario (VArr [VNum (of_Z 50)]) (Sample.counted 25).
Proof.
  exact (only_first_row first_of_first Sample.resolver ∅
           (Sample.store (VArr [VNum (of_Z 50); VNum (of_Z 7)]) (Sample.counted 25))
           (Some Sample.scenario) (Sample.request "ACCC")
           Sample.scenario [Sample.x00]
           (Sample.params_of Sample.hour None None) Sample.hour Sample.cache
           ltac:(sample_guarded)
           (Sample.store (VArr [VNum (of_Z 50)]) (Sample.counted 25))
           (VNum (of_Z 50)) [VNum (of_Z 7)] [] eq_refl eq_refl eq_refl eq_refl).
Defined.

(** The baseline count in a batch of its own. *)
Lemma wrapped_baseline_row_witness :
  Sample.run "ACCC" Sample.scenario (VArr [VNum (of_Z 50)]) (Sample.counted 25)
  = Sample.run "ACCC" Sample.scenario (VArr [VArr [VNum (of_Z 50)]]) (Sample.counted 25).
Proof.
  exact (wrapped_baseline_row first_of_first Sample.resolver ∅
           (Sample.store (VArr [VNum (of_Z 50)]) (Sample.counted 25))
           (Some Sample.scenario) (Sample.request "ACCC")
           Sample.scenario [Sample.x00]
           (Sample.params_of Sample.hour None None) Sample.hour Sample.cache
           ltac:(sample_guarded)
           (Sample.store (VArr [VArr [VNum (of_Z 50)]]) (Sample.counted 25))
           (of_Z 50) [] [] eq_refl eq_refl eq_refl eq_refl).
Defined.

(** Scenario D of the specification, against a store that returns the cursor
    itself: an empty baseline result. *)
Lemma baseline_unavailable_witness :
  outcome (Sample.run "ACCC" Sample.scenario (VArr []) (Sample.counted 25))
  = Throw err_baseline
  ∧ length (queries (effects (Sample.run "ACCC" Sample.scenario (VArr [])
                                (Sample.counted 25)))) = 1.
Proof.
  destruct (proj1 (baseline_unavailable first_of_first Sample.resolver ∅
                     (Sample.store (VArr []) (Sample.counted 25))
                     (Some Sample.scenario) (Sample.request "ACCC")
                     Sample.scenario [Sample.x00]
                     (Sample.params_of Sample.hour None None) Sample.hour Sample.cache
                     ltac:(sample_guarded) eq_refl)
              (VArr []) eq_refl (or_intror eq_refl))
    as [Hrun Hq].
  unfold Sample.run. rewrite Hq, Hrun. split; reflexivity.
Defined.

(** Scenario A with the cursor of the baseline query returned and that of
    the current-window query promised. *)
Lemma current_query_awaited_witness :
  handleTransaction first_of_first (Sample.request "ACCC") Sample.resolver ∅
    (Some Sample.scenario)
    (λ q, match q with
          | BaselineQuery _ _ _ => Cursor (Resolved (VArr [VNum (of_Z 50)]))
          | CurrentQuery _ _ _ => PromiseOf (Resolved (Sample.counted 25))
          end)
  = Sample.run "ACCC" Sample.scenario (VArr [VNum (of_Z 50)]) (Sample.counted 25).
Proof.
  exact (current_query_awaited first_of_first Sample.resolver ∅
           (λ q, match q with
                 | BaselineQuery _ _ _ => Cursor (Resolved (VArr [VNum (of_Z 50)]))
                 | CurrentQuery _ _ _ => PromiseOf (Resolved (Sample.counted 25))
                 end)
           (Some Sample.scenario) (Sample.request "ACCC")
           Sample.scenario [Sample.x00]
           (Sample.params_of Sample.hour None None) Sample.hour Sample.cache
           ltac:(sample_guarded)
           (Sample.store (VArr [VNum (of_Z 50)]) (Sample.counted 25))
           eq_refl eq_refl eq_refl).
Defined.

(** Scenario A against the driver. *)
Lemma promises_never_decide_witness :
  ∃ message,
    outcome (Sample.driven "ACCC" Sample.scenario (VArr [VNum (of_Z 50)])
               (Sample.counted 25))
    = Throw message.
Proof.
  exact (proj1 (promises_never_decide first_of_first Sample.resolver ∅
                  (Sample.driver (VArr [VNum (of_Z 50)]) (Sample.counted 25))
                  (Some Sample.scenario) (Sample.request "ACCC")
                  (λ q, match q with
                        | BaselineQuery _ _ _ | CurrentQuery _ _ _ => eq_refl
                        end)
                  eq_refl)).
Defined.
